(** * parse_version: a shallow embedding of [.github/utils/parse_version.py]

    The script parses a release version string such as ["v2.99.0-rc1"] and
    derives the release metadata printed by the release workflow.  Python
    strings are modelled by [string], the returned [dict] by an association
    list in insertion order, exceptions by an error monad and standard
    output by a text buffer threaded through [main].

    A [string] holds the UTF-8 bytes of the Python text.  The script only
    looks for the ASCII characters ['v'], ['.'], ['-'] and the text
    ["rc1"], and an ASCII byte never occurs inside the encoding of another
    character, so stripping, splitting and searching on bytes agree with
    the same operations on code points. *)

From Stdlib Require Import Bool Arith Lia List Ascii String.
Import ListNotations.

Local Open Scope list_scope.
Local Open Scope string_scope.

(** ** Exceptions and the error monad *)

(** The exceptions the script's operations can raise.  [ValueError] is the
    one raised explicitly by [parse_version]; [UnpackError] is the
    [ValueError] Python raises when a sequence unpacked into [expected]
    targets has [got] elements; [IndexError] is raised by indexing a list
    or [sys.argv] out of range; [OutputError] is what a [print] raises when
    [sys.stdout] does not take the text (a [UnicodeEncodeError] when the
    stream's encoding cannot encode it). *)
Inductive exn : Type :=
| ValueError (msg : string)
| UnpackError (expected got : nat)
| IndexError
| OutputError.

Inductive result (A : Type) : Type :=
| Ok (a : A)
| Raise (e : exn).

Arguments Ok {A} a.
Arguments Raise {A} e.

Definition bind {A B : Type} (m : result A) (k : A -> result B) : result B :=
  match m with
  | Ok a => k a
  | Raise e => Raise e
  end.

Notation "x <- m ;; k" := (bind m (fun x => k))
  (at level 61, m at next level, right associativity).
Notation "' pat <- m ;; k" := (bind m (fun x => match x with pat => k end))
  (at level 61, pat pattern, m at next level, right associativity).

(** ** The string built-ins used by the script *)

Module Str.

(** [c in chars] for a character [c]. *)
Fixpoint mem (c : ascii) (chars : string) : bool :=
  match chars with
  | "" => false
  | String a chars' => Ascii.eqb c a || mem c chars'
  end.

(** [s.lstrip(chars)]: drop the longest prefix of [s] made of characters
    that occur in [chars]. *)
Fixpoint lstrip (chars : string) (s : string) : string :=
  match s with
  | "" => ""
  | String c s' => if mem c chars then lstrip chars s' else s
  end.

(** [s.split(sep)] for a one-character separator, the only form the script
    uses.  The result always has at least one element; the last arm is
    unreachable and only there for totality. *)
Fixpoint split (sep : ascii) (s : string) : list string :=
  match s with
  | "" => [""]
  | String c s' =>
      if Ascii.eqb c sep then "" :: split sep s'
      else match split sep s' with
           | p :: ps => String c p :: ps
           | [] => [String c ""]
           end
  end.

(** [s.startswith(p)]. *)
Fixpoint startswith (p s : string) : bool :=
  match p, s with
  | "", _ => true
  | String _ _, "" => false
  | String a p', String b s' => Ascii.eqb a b && startswith p' s'
  end.

(** [needle in hay]: [needle] occurs at some position of [hay]. *)
Fixpoint contains (needle hay : string) : bool :=
  startswith needle hay ||
  match hay with
  | "" => false
  | String _ hay' => contains needle hay'
  end.

(** [str(b)] for a Python [bool]. *)
Definition of_bool (b : bool) : string :=
  if b then "True" else "False".

(** [s.lower()], on the ASCII letters. *)
Definition lower_ascii (c : ascii) : ascii :=
  let n := nat_of_ascii c in
  if ((65 <=? n) && (n <=? 90))%nat then ascii_of_nat (n + 32) else c.

Fixpoint lower (s : string) : string :=
  match s with
  | "" => ""
  | String c s' => String (lower_ascii c) (lower s')
  end.

(** The spec's words for the strings above, used to state the claims. *)

(** [n] copies of the character [c]. *)
Fixpoint replicate (n : nat) (c : ascii) : string :=
  match n with
  | O => ""
  | S n' => String c (replicate n' c)
  end.

(** The text of [s] before its first [c]; all of [s] when [c] is absent. *)
Fixpoint before_first (c : ascii) (s : string) : string :=
  match s with
  | "" => ""
  | String a s' => if Ascii.eqb a c then "" else String a (before_first c s')
  end.

(** Number of occurrences of the character [c] in [s]. *)
Fixpoint count (c : ascii) (s : string) : nat :=
  match s with
  | "" => 0
  | String a s' => (if Ascii.eqb a c then 1 else 0) + count c s'
  end.

(** [sep.join(parts)]. *)
Fixpoint join (sep : string) (parts : list string) : string :=
  match parts with
  | [] => ""
  | [p] => p
  | p :: ps => p ++ sep ++ join sep ps
  end.

End Str.

(** ** Python dictionaries, in insertion order *)

Module Dict.

Definition t : Type := list (string * string).

(** [d[k] = v]: overwrite in place when [k] is present, append otherwise. *)
Fixpoint setitem (k v : string) (d : t) : t :=
  match d with
  | [] => [(k, v)]
  | (k', v') :: d' =>
      if String.eqb k' k then (k, v) :: d' else (k', v') :: setitem k v d'
  end.

(** A dict display [{k1: v1, ..., kn: vn}]: the pairs are stored from left
    to right. *)
Definition literal (kvs : list (string * string)) : t :=
  fold_left (fun d kv => setitem (fst kv) (snd kv) d) kvs [].

(** [d.get(k)]. *)
Fixpoint get (k : string) (d : t) : option string :=
  match d with
  | [] => None
  | (k', v) :: d' => if String.eqb k' k then Some v else get k d'
  end.

(** [d.items()]. *)
Definition items (d : t) : list (string * string) := d.

End Dict.

(** ** Sequence operations that may raise *)

(** [a, b, c = xs]. *)
Definition unpack3 (xs : list string) : result (string * string * string) :=
  match xs with
  | [a; b; c] => Ok (a, b, c)
  | _ => Raise (UnpackError 3 (List.length xs))
  end.

(** [xs[i]]. *)
Definition getitem (xs : list string) (i : nat) : result string :=
  match nth_error xs i with
  | Some x => Ok x
  | None => Raise IndexError
  end.

(** ** [parse_version] *)

Definition format_error (version_input : string) : exn :=
  ValueError ("Invalid version format: " ++ version_input
              ++ ". Expected MAJOR.MINOR.PATCH").

Definition parse_version (version_input : string) : result Dict.t :=
  let version := Str.lstrip "v" version_input in
  let parts := Str.split "." version in
  if negb (List.length parts =? 3)%nat then Raise (format_error version_input)
  else
    '(major, minor, patch) <- unpack3 parts ;;
    patch <- getitem (Str.split "-" patch) 0 ;;
    let release_branch := "v" ++ major ++ "." ++ minor ++ ".x" in
    let is_minor := String.eqb patch "0" in
    let is_first_rc := is_minor && Str.contains "rc1" version in
    Ok (Dict.literal
          [ ("version", version);
            ("major_minor", major ++ "." ++ minor);
            ("release_branch", release_branch);
            ("is_minor", Str.lower (Str.of_bool is_minor));
            ("is_first_rc", Str.lower (Str.of_bool is_first_rc)) ]).

(** ** [main] and standard output *)

(** A computation that writes to standard output and may raise: the text
    written so far is threaded through, and is kept when an exception
    propagates. *)
Definition IO (A : Type) : Type := string -> string * result A.

Definition io_ret {A : Type} (a : A) : IO A := fun out => (out, Ok a).

Definition io_bind {A B : Type} (m : IO A) (k : A -> IO B) : IO B :=
  fun out =>
    match m out with
    | (out', Ok a) => k a out'
    | (out', Raise e) => (out', Raise e)
    end.

Definition io_lift {A : Type} (r : result A) : IO A := fun out => (out, r).

Definition newline : string := String (ascii_of_nat 10) "".

(** [sys.stdout], as far as the script can tell: the texts the stream
    takes.  Writing any other text raises. *)
Definition stream : Type := string -> bool.

(** A stream that takes every text. *)
Definition accepting : stream := fun _ => true.

(** [print(s)]: [s] and a line feed are written, unless the stream does
    not take [s]; then nothing of it is written and the call raises. *)
Definition print (stdout : stream) (s : string) : IO unit :=
  fun out =>
    if stdout s then (out ++ s ++ newline, Ok tt)
    else (out, Raise OutputError).

(** [for x in xs: body(x)]. *)
Fixpoint for_each {A : Type} (xs : list A) (body : A -> IO unit) : IO unit :=
  match xs with
  | [] => io_ret tt
  | x :: xs' => io_bind (body x) (fun _ => for_each xs' body)
  end.

(** [main], given [sys.stdout] and [sys.argv]. *)
Definition main (stdout : stream) (argv : list string) : IO unit :=
  io_bind (io_lift (getitem argv 1)) (fun version_input =>
  io_bind (io_lift (parse_version version_input)) (fun parsed =>
  for_each (Dict.items parsed) (fun kv =>
    print stdout (fst kv ++ "=" ++ snd kv)))).

(** Running the script: what is on standard output when it ends, and how. *)
Definition run_on (stdout : stream) (argv : list string)
  : string * result unit :=
  main stdout argv "".

(** Running the script on a standard output that takes every text, so
    that no [print] raises. *)
Definition run (argv : list string) : string * result unit :=
  run_on accepting argv.

(** The spec's words for the output. *)

(** The lines of a text: its pieces between line feeds.  A text that ends
    with a line feed has an empty last piece. *)
Definition lines (out : string) : list string :=
  Str.split (ascii_of_nat 10) out.

(** One [key=value] line per entry of the record, in the record's order,
    and nothing after the last line feed. *)
Definition field_lines (r : Dict.t) : list string :=
  List.app (map (fun kv => fst kv ++ "=" ++ snd kv) (Dict.items r)) [""].

(** ** The examples of the script's documentation *)

Example parse_rc1 :
  parse_version "v2.99.0-rc1" =
  Ok [ ("version", "2.99.0-rc1"); ("major_minor", "2.99");
       ("release_branch", "v2.99.x"); ("is_minor", "true");
       ("is_first_rc", "true") ].
Proof. reflexivity. Qed.

Example parse_patch :
  parse_version "2.5.3" =
  Ok [ ("version", "2.5.3"); ("major_minor", "2.5");
       ("release_branch", "v2.5.x"); ("is_minor", "false");
       ("is_first_rc", "false") ].
Proof. reflexivity. Qed.

Example parse_two_parts :
  parse_version "1.2" = Raise (format_error "1.2").
Proof. reflexivity. Qed.

Example parse_four_parts :
  parse_version "v1.2.3.4" = Raise (format_error "v1.2.3.4").
Proof. reflexivity. Qed.

Example parse_final :
  parse_version "v1.0.0" =
  Ok [ ("version", "1.0.0"); ("major_minor", "1.0");
       ("release_branch", "v1.0.x"); ("is_minor", "true");
       ("is_first_rc", "false") ].
Proof. reflexivity. Qed.

Example parse_rc1_extra :
  parse_version "v3.2.0-rc1-extra" =
  Ok [ ("version", "3.2.0-rc1-extra"); ("major_minor", "3.2");
       ("release_branch", "v3.2.x"); ("is_minor", "true");
       ("is_first_rc", "true") ].
Proof. reflexivity. Qed.

(** The patch is compared as text: ["00"] is not ["0"]. *)
Example parse_patch_00 :
  parse_version "1.2.00" =
  Ok [ ("version", "1.2.00"); ("major_minor", "1.2");
       ("release_branch", "v1.2.x"); ("is_minor", "false");
       ("is_first_rc", "false") ].
Proof. reflexivity. Qed.

Example run_rc1 :
  run ["parse_version.py"; "v2.99.0-rc1"] =
  ("version=2.99.0-rc1" ++ newline ++ "major_minor=2.99" ++ newline ++
   "release_branch=v2.99.x" ++ newline ++ "is_minor=true" ++ newline ++
   "is_first_rc=true" ++ newline, Ok tt).
Proof. reflexivity. Qed.

(** ** Facts about the string built-ins *)

Section StrFacts.

Variable sep : ascii.

Lemma split_cons (s : string) :
  exists p ps, Str.split sep s = p :: ps.
Proof.
  destruct s as [|c s]; simpl; [now eauto|].
  destruct (Ascii.eqb c sep); [now eauto|].
  destruct (Str.split sep s); eauto.
Qed.

(** [split] cuts once per separator. *)
Lemma length_split (s : string) :
  List.length (Str.split sep s) = S (Str.count sep s).
Proof.
  induction s as [|c s IH]; simpl; [reflexivity|].
  destruct (Ascii.eqb c sep); simpl; [now rewrite IH|].
  destruct (Str.split sep s) as [|p ps]; simpl in *; [discriminate|exact IH].
Qed.

(** Joining the pieces with the separator gives the string back. *)
Lemma join_split (s : string) :
  Str.join (String sep "") (Str.split sep s) = s.
Proof.
  induction s as [|c s IH]; [reflexivity|].
  cbn [Str.split].
  destruct (split_cons s) as (p & ps & E). rewrite E in *.
  destruct (Ascii.eqb_spec c sep) as [->|Hne].
  - change (String sep (Str.join (String sep "") (p :: ps)) = String sep s).
    now rewrite IH.
  - destruct ps as [|q ps].
    + simpl in *. now rewrite IH.
    + change (String c (p ++ String sep "" ++ Str.join (String sep "") (q :: ps))
              = String c s).
      change (p ++ String sep "" ++ Str.join (String sep "") (q :: ps) = s) in IH.
      now rewrite IH.
Qed.

(** The first piece is the text before the first separator. *)
Lemma split_first (s : string) :
  nth_error (Str.split sep s) 0 = Some (Str.before_first sep s).
Proof.
  induction s as [|c s IH]; simpl; [reflexivity|].
  destruct (Ascii.eqb c sep); [reflexivity|].
  destruct (Str.split sep s) as [|p ps]; simpl in *; [discriminate|].
  now inversion IH.
Qed.

(** No piece contains the separator. *)
Lemma split_no_sep (s p : string) :
  In p (Str.split sep s) -> Str.count sep p = 0.
Proof.
  revert p. induction s as [|c s IH]; simpl; intros p Hin.
  - destruct Hin as [<-|[]]. reflexivity.
  - destruct (Ascii.eqb c sep) eqn:E.
    + destruct Hin as [<-|Hin]; [reflexivity|now apply IH].
    + destruct (Str.split sep s) as [|q qs].
      * destruct Hin as [<-|[]]. simpl. now rewrite E.
      * destruct Hin as [<-|Hin].
        -- simpl. rewrite E. apply IH. now left.
        -- apply IH. now right.
Qed.

End StrFacts.

Lemma getitem_split_0 (sep : ascii) (s : string) :
  getitem (Str.split sep s) 0 = Ok (Str.before_first sep s).
Proof. unfold getitem. now rewrite split_first. Qed.

Section LstripFacts.

Variable chars : string.

(** What [lstrip] returns does not start with a stripped character. *)
Lemma lstrip_head (s : string) :
  match Str.lstrip chars s with
  | "" => True
  | String c _ => Str.mem c chars = false
  end.
Proof.
  induction s as [|c s IH]; simpl; [exact I|].
  destruct (Str.mem c chars) eqn:E; [exact IH|exact E].
Qed.

Lemma lstrip_fixed (s : string) :
  match s with "" => True | String c _ => Str.mem c chars = false end ->
  Str.lstrip chars s = s.
Proof. destruct s as [|c s]; simpl; [reflexivity|]. now intros ->. Qed.

Lemma lstrip_idempotent (s : string) :
  Str.lstrip chars (Str.lstrip chars s) = Str.lstrip chars s.
Proof. apply lstrip_fixed, lstrip_head. Qed.

End LstripFacts.

Lemma mem_v (c : ascii) : Str.mem c "v" = Ascii.eqb c "v".
Proof. simpl. apply orb_false_r. Qed.

(** [lstrip("v")] removes a run of ['v'] and nothing else. *)
Lemma lstrip_v_run (s : string) :
  exists n, s = Str.replicate n "v" ++ Str.lstrip "v" s.
Proof.
  induction s as [|c s IH]; [now exists 0|].
  cbn [Str.lstrip]. rewrite mem_v.
  destruct (Ascii.eqb_spec c "v") as [->|Hne].
  - destruct IH as [n IH]. exists (S n). simpl. now rewrite <- IH.
  - now exists 0.
Qed.

Lemma lstrip_v_startswith (s : string) :
  Str.startswith "v" (Str.lstrip "v" s) = false.
Proof.
  pose proof (lstrip_head "v" s) as H.
  destruct (Str.lstrip "v" s) as [|c t]; [reflexivity|].
  rewrite mem_v in H. cbn [Str.startswith].
  now rewrite Ascii.eqb_sym, H.
Qed.

(** The run of ['v'] and the rest are determined by the string. *)
Lemma v_run_unique (n m : nat) (u w : string) :
  Str.replicate n "v" ++ u = Str.replicate m "v" ++ w ->
  Str.startswith "v" u = false -> Str.startswith "v" w = false ->
  n = m /\ u = w.
Proof.
  revert m. induction n as [|n IH]; intros [|m] E Hu Hw; simpl in E.
  - now split.
  - subst u. simpl in Hu. discriminate.
  - subst w. simpl in Hw. discriminate.
  - inversion E as [E']. destruct (IH m E' Hu Hw) as [-> ->]. now split.
Qed.

Lemma startswith_app (p s : string) : Str.startswith p (p ++ s) = true.
Proof.
  induction p as [|a p IH]; simpl; [reflexivity|].
  now rewrite Ascii.eqb_refl, IH.
Qed.

Lemma startswith_inv (p s : string) :
  Str.startswith p s = true -> exists post, s = p ++ post.
Proof.
  revert s. induction p as [|a p IH]; intros s H; simpl in *.
  - now exists s.
  - destruct s as [|b s]; [discriminate|].
    apply andb_true_iff in H as [Hab Hp].
    apply Ascii.eqb_eq in Hab as ->.
    destruct (IH s Hp) as [post ->]. now exists post.
Qed.

Lemma contains_startswith (needle hay : string) :
  Str.startswith needle hay = true -> Str.contains needle hay = true.
Proof. intros H. destruct hay; cbn [Str.contains]; now rewrite H. Qed.

(** [needle in hay] holds exactly when [hay] is some text, then [needle],
    then some text. *)
Lemma contains_spec (needle hay : string) :
  Str.contains needle hay = true <->
  exists pre post, hay = pre ++ needle ++ post.
Proof.
  split.
  - induction hay as [|c hay IH]; simpl; intros H.
    + rewrite orb_false_r in H. apply startswith_inv in H as [post ->].
      now exists "", post.
    + apply orb_true_iff in H as [H|H].
      * apply startswith_inv in H as [post ->]. now exists "", post.
      * destruct (IH H) as (pre & post & ->). now exists (String c pre), post.
  - intros (pre & post & ->).
    induction pre as [|c pre IH].
    + change (Str.contains needle (needle ++ post) = true).
      apply contains_startswith, startswith_app.
    + cbn [append Str.contains]. rewrite IH. apply orb_true_r.
Qed.

Lemma lower_of_bool (b : bool) :
  Str.lower (Str.of_bool b) = if b then "true" else "false".
Proof. now destruct b. Qed.

Lemma lower_of_bool_true (b : bool) :
  Str.lower (Str.of_bool b) = "true" <-> b = true.
Proof. destruct b; simpl; split; intros H; try reflexivity; discriminate. Qed.

Lemma append_assoc (a b c : string) : (a ++ b) ++ c = a ++ b ++ c.
Proof. induction a as [|x a IH]; simpl; [reflexivity|now rewrite IH]. Qed.

Lemma count_append (c : ascii) (a b : string) :
  Str.count c (a ++ b) = Str.count c a + Str.count c b.
Proof. induction a as [|x a IH]; simpl; [reflexivity|rewrite IH; lia]. Qed.

(** ** The two outcomes of [parse_version] *)

Lemma length_three {A : Type} (l : list A) :
  List.length l = 3 -> exists a b c, l = [a; b; c].
Proof.
  destruct l as [|a [|b [|c [|d l]]]]; simpl; try discriminate.
  intros _. now exists a, b, c.
Qed.

(** With three components every step goes through and the record is: *)
Lemma parse_version_three (s major minor patch : string) :
  Str.split "." (Str.lstrip "v" s) = [major; minor; patch] ->
  parse_version s =
  Ok [ ("version", Str.lstrip "v" s);
       ("major_minor", major ++ "." ++ minor);
       ("release_branch", "v" ++ major ++ "." ++ minor ++ ".x");
       ("is_minor",
        Str.lower (Str.of_bool (Str.before_first "-" patch =? "0")));
       ("is_first_rc",
        Str.lower (Str.of_bool ((Str.before_first "-" patch =? "0")
                                && Str.contains "rc1" (Str.lstrip "v" s)))) ].
Proof.
  intros E. unfold parse_version. rewrite E.
  cbn [List.length Nat.eqb negb unpack3 bind].
  rewrite getitem_split_0. reflexivity.
Qed.

(** Otherwise the explicit [raise] is reached. *)
Lemma parse_version_not_three (s : string) :
  List.length (Str.split "." (Str.lstrip "v" s)) <> 3 ->
  parse_version s = Raise (format_error s).
Proof.
  intros H. unfold parse_version.
  apply Nat.eqb_neq in H. now rewrite H.
Qed.

Lemma parse_version_Ok (s : string) (r : Dict.t) :
  parse_version s = Ok r ->
  exists major minor patch,
    Str.split "." (Str.lstrip "v" s) = [major; minor; patch] /\
    parse_version s =
    Ok [ ("version", Str.lstrip "v" s);
         ("major_minor", major ++ "." ++ minor);
         ("release_branch", "v" ++ major ++ "." ++ minor ++ ".x");
         ("is_minor",
          Str.lower (Str.of_bool (Str.before_first "-" patch =? "0")));
         ("is_first_rc",
          Str.lower (Str.of_bool ((Str.before_first "-" patch =? "0")
                                  && Str.contains "rc1" (Str.lstrip "v" s)))) ].
Proof.
  intros H.
  destruct (Nat.eq_dec (List.length (Str.split "." (Str.lstrip "v" s))) 3)
    as [E|NE].
  - destruct (length_three _ E) as (major & minor & patch & P).
    exists major, minor, patch. split; [exact P|].
    now apply parse_version_three.
  - rewrite (parse_version_not_three s NE) in H. discriminate.
Qed.

(** Destructs a successful parse into its components and its record. *)
Ltac parse_inv H :=
  let major := fresh "major" in
  let minor := fresh "minor" in
  let patch := fresh "patch" in
  let P := fresh "Hparts" in
  let R := fresh "Hrec" in
  destruct (parse_version_Ok _ _ H) as (major & minor & patch & P & R);
  rewrite R in H; injection H as <-.

(** ** The claims *)

(** C1: [parse_version] fails with the format error exactly when the input,
    stripped of its leading ['v'] characters, does not split on ['.'] into
    exactly three components; when it does split into three, a record is
    returned. *)
Theorem parse_version_format_error_iff (s : string) :
  let parts := Str.split "." (Str.lstrip "v" s) in
  (parse_version s = Raise (format_error s) <-> List.length parts <> 3) /\
  ((exists e, parse_version s = Raise e) <-> List.length parts <> 3) /\
  (List.length parts = 3 -> exists r, parse_version s = Ok r).
Proof.
  intros parts.
  assert (Hok : List.length parts = 3 -> exists r, parse_version s = Ok r).
  { intros E. destruct (length_three _ E) as (major & minor & patch & P).
    eexists. now apply parse_version_three with (1 := P). }
  assert (Herr : (exists e, parse_version s = Raise e) ->
                 List.length parts <> 3).
  { intros [e He] E. destruct (Hok E) as [r Hr]. congruence. }
  repeat split.
  - intros H. apply Herr. eauto.
  - apply parse_version_not_three.
  - exact Herr.
  - intros H. eexists. now apply parse_version_not_three.
  - exact Hok.
Qed.

Lemma parse_version_format_error_iff_witness :
  exists r, parse_version "v2.99.0-rc1" = Ok r.
Proof.
  apply (proj2 (proj2 (parse_version_format_error_iff "v2.99.0-rc1"))).
  reflexivity.
Defined.

(** C2: in a successful parse, [is_first_rc] is ["true"] exactly when
    [is_minor] is ["true"] and the version (the input after the leading-['v']
    strip) contains ["rc1"] somewhere; so ["v3.2.0-rc1-extra"] is a first
    release candidate. *)
Theorem is_first_rc_iff :
  (forall (s : string) (r : Dict.t),
      parse_version s = Ok r ->
      (Dict.get "is_first_rc" r = Some "true" <->
       Dict.get "is_minor" r = Some "true" /\
       exists pre post, Str.lstrip "v" s = pre ++ "rc1" ++ post)) /\
  (exists r, parse_version "v3.2.0-rc1-extra" = Ok r /\
             Dict.get "is_first_rc" r = Some "true").
Proof.
  split.
  - intros s r H. parse_inv H.
    cbn [Dict.get String.eqb Ascii.eqb Bool.eqb].
    rewrite <- contains_spec.
    destruct (Str.before_first "-" patch =? "0");
      destruct (Str.contains "rc1" (Str.lstrip "v" s)); simpl;
      intuition discriminate.
  - eexists. split; reflexivity.
Qed.

Lemma is_first_rc_iff_witness :
  Dict.get "is_first_rc"
    [ ("version", "2.99.0-rc1"); ("major_minor", "2.99");
      ("release_branch", "v2.99.x"); ("is_minor", "true");
      ("is_first_rc", "true") ] = Some "true" <->
  Dict.get "is_minor"
    [ ("version", "2.99.0-rc1"); ("major_minor", "2.99");
      ("release_branch", "v2.99.x"); ("is_minor", "true");
      ("is_first_rc", "true") ] = Some "true" /\
  exists pre post, Str.lstrip "v" "v2.99.0-rc1" = pre ++ "rc1" ++ post.
Proof.
  apply (proj1 is_first_rc_iff "v2.99.0-rc1"). reflexivity.
Defined.

(** C3: in a successful parse, [is_minor] is ["true"] exactly when the third
    dot-separated component, cut at its first ['-'] (kept whole when it has
    none), is the text ["0"]; otherwise it is ["false"].  The comparison is
    on text: a patch of ["00"] is not minor, a patch of ["0-rc1"] is. *)
Theorem is_minor_iff (s : string) (r : Dict.t) :
  parse_version s = Ok r ->
  exists major minor patch,
    Str.split "." (Str.lstrip "v" s) = [major; minor; patch] /\
    (Dict.get "is_minor" r = Some "true" <->
     Str.before_first "-" patch = "0") /\
    (Dict.get "is_minor" r = Some "false" <->
     Str.before_first "-" patch <> "0").
Proof.
  intros H. parse_inv H. exists major, minor, patch.
  split; [assumption|].
  cbn [Dict.get String.eqb Ascii.eqb Bool.eqb].
  destruct (String.eqb_spec (Str.before_first "-" patch) "0") as [E|NE];
    simpl; repeat split; intros; try congruence; try reflexivity.
Qed.

Lemma is_minor_iff_witness :
  exists major minor patch,
    Str.split "." (Str.lstrip "v" "v1.2.0-rc1") = [major; minor; patch] /\
    (Dict.get "is_minor"
       [ ("version", "1.2.0-rc1"); ("major_minor", "1.2");
         ("release_branch", "v1.2.x"); ("is_minor", "true");
         ("is_first_rc", "true") ] = Some "true" <->
     Str.before_first "-" patch = "0") /\
    (Dict.get "is_minor"
       [ ("version", "1.2.0-rc1"); ("major_minor", "1.2");
         ("release_branch", "v1.2.x"); ("is_minor", "true");
         ("is_first_rc", "true") ] = Some "false" <->
     Str.before_first "-" patch <> "0").
Proof.
  apply (is_minor_iff "v1.2.0-rc1"). reflexivity.
Defined.

(** C4: for every input, [parse_version] removes the whole run of leading
    ['v'] characters: the input is some number of ['v'] followed by the
    stripped text, which does not start with ['v'] and is otherwise the
    input unchanged; the [version] field of a successful result is that
    stripped text. *)
Theorem version_field_stripped (s : string) :
  exists (n : nat) (version : string),
    version = Str.lstrip "v" s /\
    s = Str.replicate n "v" ++ version /\
    Str.startswith "v" version = false /\
    (forall r, parse_version s = Ok r -> Dict.get "version" r = Some version).
Proof.
  destruct (lstrip_v_run s) as [n Hn].
  exists n, (Str.lstrip "v" s). repeat split.
  - exact Hn.
  - apply lstrip_v_startswith.
  - intros r H. now parse_inv H.
Qed.

Lemma version_field_stripped_witness :
  exists (n : nat) (version : string),
    version = Str.lstrip "v" "vvv1.0.0" /\
    "vvv1.0.0" = Str.replicate n "v" ++ version /\
    Str.startswith "v" version = false /\
    Dict.get "version"
      [ ("version", "1.0.0"); ("major_minor", "1.0");
        ("release_branch", "v1.0.x"); ("is_minor", "true");
        ("is_first_rc", "false") ] = Some version.
Proof.
  destruct (version_field_stripped "vvv1.0.0") as (n & v & E & R & W & G).
  exists n, v. repeat split; try assumption.
  apply G. reflexivity.
Defined.

(** C5: in a successful parse with components [major], [minor] and [patch],
    [release_branch] is ["v" ++ major ++ "." ++ minor ++ ".x"] and
    [major_minor] is [major ++ "." ++ minor], the components being the
    pieces of the version text as they stand. *)
Theorem release_branch_major_minor (s : string) (r : Dict.t) :
  parse_version s = Ok r ->
  exists major minor patch,
    Str.split "." (Str.lstrip "v" s) = [major; minor; patch] /\
    Str.lstrip "v" s = major ++ "." ++ minor ++ "." ++ patch /\
    Dict.get "release_branch" r = Some ("v" ++ major ++ "." ++ minor ++ ".x") /\
    Dict.get "major_minor" r = Some (major ++ "." ++ minor).
Proof.
  intros H. parse_inv H. exists major, minor, patch.
  repeat split; try assumption.
  rewrite <- (join_split "." (Str.lstrip "v" s)), Hparts. reflexivity.
Qed.

Lemma release_branch_major_minor_witness :
  exists major minor patch,
    Str.split "." (Str.lstrip "v" "v02.x.7") = [major; minor; patch] /\
    Str.lstrip "v" "v02.x.7" = major ++ "." ++ minor ++ "." ++ patch /\
    Dict.get "release_branch"
      [ ("version", "02.x.7"); ("major_minor", "02.x");
        ("release_branch", "v02.x.x"); ("is_minor", "false");
        ("is_first_rc", "false") ]
    = Some ("v" ++ major ++ "." ++ minor ++ ".x") /\
    Dict.get "major_minor"
      [ ("version", "02.x.7"); ("major_minor", "02.x");
        ("release_branch", "v02.x.x"); ("is_minor", "false");
        ("is_first_rc", "false") ]
    = Some (major ++ "." ++ minor).
Proof.
  apply (release_branch_major_minor "v02.x.7"). reflexivity.
Defined.

(** C8: stripping the leading ['v'] characters is idempotent. *)
Theorem lstrip_v_idempotent (s : string) :
  Str.lstrip "v" (Str.lstrip "v" s) = Str.lstrip "v" s.
Proof. apply lstrip_idempotent. Qed.

(** C9: in every record [parse_version] returns, [is_first_rc = "true"]
    implies [is_minor = "true"]. *)
Theorem first_rc_is_minor (s : string) (r : Dict.t) :
  parse_version s = Ok r ->
  Dict.get "is_first_rc" r = Some "true" ->
  Dict.get "is_minor" r = Some "true".
Proof.
  intros H. parse_inv H.
  cbn [Dict.get String.eqb Ascii.eqb Bool.eqb].
  destruct (Str.before_first "-" patch =? "0"); simpl;
    [reflexivity|discriminate].
Qed.

Lemma first_rc_is_minor_witness :
  Dict.get "is_minor"
    [ ("version", "2.20.0-rc1"); ("major_minor", "2.20");
      ("release_branch", "v2.20.x"); ("is_minor", "true");
      ("is_first_rc", "true") ] = Some "true".
Proof.
  apply (first_rc_is_minor "v2.20.0-rc1"); reflexivity.
Defined.

(** C10: in every record [parse_version] returns, the [version] field is
    empty or starts with a character other than ['v'], and the
    [release_branch] field starts with ['v']. *)
Theorem version_and_branch_head (s : string) (r : Dict.t) :
  parse_version s = Ok r ->
  (exists version,
      Dict.get "version" r = Some version /\
      (version = "" \/
       exists c rest, version = String c rest /\ c <> "v"%char)) /\
  (exists rest, Dict.get "release_branch" r = Some (String "v" rest)).
Proof.
  intros H. parse_inv H. split.
  - exists (Str.lstrip "v" s). split; [reflexivity|].
    pose proof (lstrip_head "v" s) as Hd.
    destruct (Str.lstrip "v" s) as [|c rest]; [now left|right].
    exists c, rest. split; [reflexivity|].
    rewrite mem_v in Hd. now apply Ascii.eqb_neq.
  - now exists (major ++ "." ++ minor ++ ".x").
Qed.

Lemma version_and_branch_head_witness :
  (exists version,
      Dict.get "version"
        [ ("version", "2.5.3"); ("major_minor", "2.5");
          ("release_branch", "v2.5.x"); ("is_minor", "false");
          ("is_first_rc", "false") ] = Some version /\
      (version = "" \/
       exists c rest, version = String c rest /\ c <> "v"%char)) /\
  (exists rest,
      Dict.get "release_branch"
        [ ("version", "2.5.3"); ("major_minor", "2.5");
          ("release_branch", "v2.5.x"); ("is_minor", "false");
          ("is_first_rc", "false") ] = Some (String "v" rest)).
Proof.
  apply (version_and_branch_head "v2.5.3"). reflexivity.
Defined.

(** C7: the format error is the only failure of [parse_version].  Whatever
    it raises is that error; with three components the unpacking and the
    indexing of the dash-split both return, and so does the function; and
    success depends on the number of dots alone, not on what the components
    contain. *)
Theorem parse_version_no_other_failure (s : string) :
  let parts := Str.split "." (Str.lstrip "v" s) in
  (forall e, parse_version s = Raise e ->
             e = format_error s /\ List.length parts <> 3) /\
  (List.length parts = 3 ->
   exists major minor patch,
     unpack3 parts = Ok (major, minor, patch) /\
     getitem (Str.split "-" patch) 0 = Ok (Str.before_first "-" patch) /\
     exists r, parse_version s = Ok r) /\
  (Str.count "." (Str.lstrip "v" s) = 2 <-> exists r, parse_version s = Ok r).
Proof.
  intros parts.
  assert (Hok : List.length parts = 3 ->
                exists major minor patch,
                  unpack3 parts = Ok (major, minor, patch) /\
                  getitem (Str.split "-" patch) 0
                  = Ok (Str.before_first "-" patch) /\
                  exists r, parse_version s = Ok r).
  { intros E. destruct (length_three _ E) as (major & minor & patch & P).
    exists major, minor, patch. repeat split.
    - now rewrite P.
    - apply getitem_split_0.
    - eexists. now apply parse_version_three with (1 := P). }
  repeat split.
  - destruct (Nat.eq_dec (List.length parts) 3) as [E|NE].
    + destruct (Hok E) as (? & ? & ? & _ & _ & r & Hr). congruence.
    + rewrite (parse_version_not_three s NE) in H. congruence.
  - intros E. destruct (Hok E) as (? & ? & ? & _ & _ & r & Hr). congruence.
  - exact Hok.
  - intros E.
    assert (L : List.length parts = 3)
      by (subst parts; rewrite length_split; now rewrite E).
    destruct (Hok L) as (? & ? & ? & _ & _ & Hr). exact Hr.
  - intros [r Hr]. destruct (parse_version_Ok _ _ Hr) as (? & ? & ? & P & _).
    pose proof (length_split "." (Str.lstrip "v" s)) as L.
    rewrite P in L. simpl in L. lia.
Qed.

Lemma parse_version_no_other_failure_witness :
  exists major minor patch,
    unpack3 (Str.split "." (Str.lstrip "v" "va.b.c-d"))
    = Ok (major, minor, patch) /\
    getitem (Str.split "-" patch) 0 = Ok (Str.before_first "-" patch) /\
    exists r, parse_version "va.b.c-d" = Ok r.
Proof.
  apply (proj1 (proj2 (parse_version_no_other_failure "va.b.c-d"))).
  reflexivity.
Defined.

(** ** Running [main] *)

(** What the script prints for an argument with three components. *)
Lemma run_three (prog arg major minor patch : string) :
  Str.split "." (Str.lstrip "v" arg) = [major; minor; patch] ->
  run [prog; arg] =
  ("version=" ++ Str.lstrip "v" arg ++ newline ++
   "major_minor=" ++ (major ++ "." ++ minor) ++ newline ++
   "release_branch=" ++ ("v" ++ major ++ "." ++ minor ++ ".x") ++ newline ++
   "is_minor=" ++
     Str.lower (Str.of_bool (Str.before_first "-" patch =? "0")) ++ newline ++
   "is_first_rc=" ++
     Str.lower (Str.of_bool ((Str.before_first "-" patch =? "0")
                             && Str.contains "rc1" (Str.lstrip "v" arg)))
     ++ newline,
   Ok tt).
Proof.
  intros P. unfold run, run_on, main, io_bind, io_lift.
  cbn [getitem nth_error]. rewrite (parse_version_three _ _ _ _ P).
  cbn [Dict.items for_each io_bind io_ret print fst snd].
  unfold io_bind, print, io_ret, accepting.
  repeat first [rewrite !append_assoc | progress cbn [fst snd append]].
  reflexivity.
Qed.

(** A malformed argument ends the script with the format error before
    anything is printed. *)
Lemma run_format_error (prog arg : string) :
  List.length (Str.split "." (Str.lstrip "v" arg)) <> 3 ->
  run [prog; arg] = ("", Raise (format_error arg)).
Proof.
  intros H. unfold run, run_on, main, io_bind, io_lift.
  cbn [getitem nth_error]. now rewrite (parse_version_not_three _ H).
Qed.

(** Without an argument [sys.argv[1]] raises. *)
Lemma run_no_argument (prog : string) :
  run [prog] = ("", Raise IndexError).
Proof. reflexivity. Qed.

(** When the argument has no line break, standard output has exactly five
    lines. *)
Lemma run_line_count (prog arg : string) (r : Dict.t) :
  parse_version arg = Ok r ->
  Str.count (ascii_of_nat 10) arg = 0 ->
  Str.count (ascii_of_nat 10) (fst (run [prog; arg])) = 5.
Proof.
  intros H Hnl. destruct (parse_version_Ok _ _ H) as (major & minor & patch & P & _).
  rewrite (run_three prog _ _ _ _ P). cbn [fst].
  pose proof (join_split "." (Str.lstrip "v" arg)) as J.
  rewrite P in J. cbn [Str.join] in J.
  destruct (lstrip_v_run arg) as [n Hn].
  rewrite Hn, count_append in Hnl.
  assert (Hv : Str.count (ascii_of_nat 10) (Str.lstrip "v" arg) = 0) by lia.
  pose proof Hv as Hc. rewrite <- J in Hc.
  rewrite !count_append in Hc.
  rewrite !lower_of_bool.
  destruct (_ =? _); destruct (Str.contains _ _);
    repeat first [rewrite !count_append | progress cbn in Hc, Hv |- *];
    lia.
Qed.

(** [main] on any standard output. *)

Lemma run_on_missing (stdout : stream) (argv : list string) :
  (List.length argv < 2)%nat -> run_on stdout argv = ("", Raise IndexError).
Proof.
  destruct argv as [|prog [|arg rest]]; simpl; intros H;
    [reflexivity|reflexivity|lia].
Qed.

Lemma run_on_format_error
  (stdout : stream) (prog arg : string) (rest : list string) :
  List.length (Str.split "." (Str.lstrip "v" arg)) <> 3 ->
  run_on stdout (prog :: arg :: rest) = ("", Raise (format_error arg)).
Proof.
  intros H. unfold run_on, main, io_bind, io_lift.
  cbn [getitem nth_error]. now rewrite (parse_version_not_three _ H).
Qed.

(** Once the argument has parsed, the script either prints what it prints
    on a stream that takes everything, or stops at a [print] that
    raises. *)
Lemma run_on_three
  (stdout : stream) (prog arg major minor patch : string)
  (rest : list string) :
  Str.split "." (Str.lstrip "v" arg) = [major; minor; patch] ->
  run_on stdout (prog :: arg :: rest) = run [prog; arg] \/
  exists out, run_on stdout (prog :: arg :: rest) = (out, Raise OutputError).
Proof.
  intros P. unfold run, run_on, main, io_bind, io_lift.
  cbn [getitem nth_error]. rewrite (parse_version_three _ _ _ _ P).
  cbn [Dict.items for_each io_bind io_ret fst snd].
  unfold io_bind, print, io_ret, accepting.
  repeat match goal with
         | |- context [if stdout ?l then _ else _] =>
             destruct (stdout l); [|right; eexists; reflexivity]
         end.
  now left.
Qed.

(** ** Building strings from dot-free components *)

Section SplitOfJoin.

Variable sep : ascii.

Lemma count_zero_cons (c : ascii) (a : string) :
  Str.count sep (String c a) = 0 ->
  Ascii.eqb c sep = false /\ Str.count sep a = 0.
Proof.
  simpl. destruct (Ascii.eqb c sep); [intros H; lia|]. now split.
Qed.

(** A piece without separator, then a separator: [split] cuts there. *)
Lemma split_app_sep (a rest : string) :
  Str.count sep a = 0 ->
  Str.split sep (a ++ String sep rest) = a :: Str.split sep rest.
Proof.
  induction a as [|c a IH]; intros H.
  - cbn [append Str.split]. now rewrite Ascii.eqb_refl.
  - apply count_zero_cons in H as [Hc Ha].
    cbn [append Str.split]. now rewrite Hc, (IH Ha).
Qed.

Lemma split_no_sep_one (a : string) :
  Str.count sep a = 0 -> Str.split sep a = [a].
Proof.
  induction a as [|c a IH]; intros H; [reflexivity|].
  apply count_zero_cons in H as [Hc Ha].
  cbn [Str.split]. now rewrite Hc, (IH Ha).
Qed.

Lemma split_three (a b c : string) :
  Str.count sep a = 0 -> Str.count sep b = 0 -> Str.count sep c = 0 ->
  Str.split sep (a ++ String sep (b ++ String sep c)) = [a; b; c].
Proof.
  intros Ha Hb Hc.
  now rewrite (split_app_sep _ _ Ha), (split_app_sep _ _ Hb),
    (split_no_sep_one _ Hc).
Qed.

(** Cutting before the first separator forgets what follows it. *)
Lemma before_first_app_sep (a rest : string) :
  Str.before_first sep (a ++ String sep rest) = Str.before_first sep a.
Proof.
  induction a as [|c a IH]; cbn [append Str.before_first].
  - now rewrite Ascii.eqb_refl.
  - destruct (Ascii.eqb c sep); [reflexivity|now rewrite IH].
Qed.

Lemma before_first_count (a : string) :
  Str.count sep (Str.before_first sep a) = 0.
Proof.
  induction a as [|c a IH]; [reflexivity|].
  cbn [Str.before_first]. destruct (Ascii.eqb c sep) eqn:E; [reflexivity|].
  cbn [Str.count]. now rewrite E, IH.
Qed.

End SplitOfJoin.

(** The three components of a parsed version hold no dot. *)
Lemma components_dot_free (s major minor patch : string) :
  Str.split "." s = [major; minor; patch] ->
  Str.count "." major = 0 /\ Str.count "." minor = 0 /\
  Str.count "." patch = 0.
Proof.
  intros P. repeat split; apply (split_no_sep "." s); rewrite P; simpl; auto.
Qed.

Lemma components_join (s major minor patch : string) :
  Str.split "." s = [major; minor; patch] ->
  s = major ++ "." ++ minor ++ "." ++ patch.
Proof. intros P. rewrite <- (join_split "." s), P. reflexivity. Qed.

Lemma lstrip_replicate_v (n : nat) (s : string) :
  Str.lstrip "v" (Str.replicate n "v" ++ s) = Str.lstrip "v" s.
Proof. induction n as [|n IH]; [reflexivity|exact IH]. Qed.

Lemma count_replicate_v (c : ascii) (n : nat) :
  Ascii.eqb "v" c = false -> Str.count c (Str.replicate n "v") = 0.
Proof.
  intros H. induction n as [|n IH]; [reflexivity|].
  cbn [Str.replicate Str.count]. now rewrite H, IH.
Qed.

(** Text appended to a string that is not all ['v'] is out of [lstrip]'s
    reach. *)
Lemma lstrip_v_app (s t : string) :
  Str.lstrip "v" s <> "" ->
  Str.lstrip "v" (s ++ t) = Str.lstrip "v" s ++ t.
Proof.
  induction s as [|c s IH]; intros H.
  - now contradiction H.
  - cbn [append Str.lstrip] in *.
    destruct (Str.mem c "v"); [now apply IH|reflexivity].
Qed.

(** A dot-separated text whose first component does not start with ['v']
    is left alone by the strip. *)
Lemma lstrip_v_components (major rest : string) :
  Str.startswith "v" major = false ->
  Str.lstrip "v" (major ++ String "." rest) = major ++ String "." rest.
Proof.
  intros H. apply lstrip_fixed.
  destruct major as [|c major]; [reflexivity|].
  cbn [append]. rewrite mem_v. cbn [Str.startswith] in H.
  rewrite andb_true_r in H. now rewrite Ascii.eqb_sym.
Qed.

(** [parse_version] sees its argument only through the stripped text. *)
Lemma parse_version_same_stripped (s s' : string) (r : Dict.t) :
  Str.lstrip "v" s = Str.lstrip "v" s' ->
  parse_version s = Ok r -> parse_version s' = Ok r.
Proof.
  intros E H. parse_inv H. rewrite E in Hparts.
  rewrite (parse_version_three _ _ _ _ Hparts). now rewrite E.
Qed.

(** The result of [main] only depends on [sys.argv[1]]. *)
Lemma run_second (prog arg : string) (rest : list string) :
  run (prog :: arg :: rest) = run [prog; arg].
Proof. reflexivity. Qed.

(** ** Further properties of [main] *)

(** X1: started with no positional argument, the script stops at
    [sys.argv[1]] with an [IndexError], having printed nothing. *)
Theorem main_missing_argument (argv : list string) :
  (List.length argv < 2)%nat -> run argv = ("", Raise IndexError).
Proof.
  destruct argv as [|prog [|arg rest]]; simpl; intros H;
    [reflexivity|reflexivity|lia].
Qed.

Lemma main_missing_argument_witness :
  run ["parse_version.py"] = ("", Raise IndexError).
Proof.
  apply (main_missing_argument ["parse_version.py"]). simpl. lia.
Defined.

(** X2: when the first argument, stripped of its leading ['v'], does not
    hold exactly two dots, the script ends with the format error, whose
    message quotes the argument as given (before the strip), and prints
    nothing; further arguments make no difference. *)
Theorem main_format_error (prog arg : string) (rest : list string) :
  Str.count "." (Str.lstrip "v" arg) <> 2 ->
  run (prog :: arg :: rest) =
  ("", Raise (ValueError ("Invalid version format: " ++ arg
                          ++ ". Expected MAJOR.MINOR.PATCH"))).
Proof.
  intros H. rewrite run_second. apply run_format_error.
  rewrite length_split. lia.
Qed.

Lemma main_format_error_witness :
  run ["parse_version.py"; "v1.2"; "ignored"] =
  ("", Raise (ValueError ("Invalid version format: " ++ "v1.2"
                          ++ ". Expected MAJOR.MINOR.PATCH"))).
Proof.
  apply (main_format_error "parse_version.py" "v1.2" ["ignored"]).
  simpl. lia.
Defined.

(** X3: whenever the script ends with an exception, either nothing has
    been written to standard output and the exception is the [IndexError]
    of a missing argument or the format error for the first argument, or
    the argument has parsed and the exception comes from a [print] that
    standard output did not take. *)
Theorem main_failure_cases
  (stdout : stream) (argv : list string) (out : string) (e : exn) :
  run_on stdout argv = (out, Raise e) ->
  (out = "" /\ e = IndexError /\ (List.length argv < 2)%nat) \/
  (out = "" /\
   exists arg, nth_error argv 1 = Some arg /\ e = format_error arg /\
               Str.count "." (Str.lstrip "v" arg) <> 2) \/
  (e = OutputError /\
   exists arg r, nth_error argv 1 = Some arg /\ parse_version arg = Ok r).
Proof.
  destruct argv as [|prog [|arg rest]].
  - intros H. injection H as <- <-. left. repeat split. simpl. lia.
  - intros H. injection H as <- <-. left. repeat split. simpl. lia.
  - intros H. right.
    destruct (Nat.eq_dec (List.length (Str.split "." (Str.lstrip "v" arg))) 3)
      as [E|NE].
    + right. destruct (length_three _ E) as (major & minor & patch & P).
      destruct (run_on_three stdout prog arg _ _ _ rest P) as [R|[o R]];
        rewrite R in H.
      * rewrite (run_three _ _ _ _ _ P) in H. discriminate.
      * injection H as <- <-. split; [reflexivity|].
        exists arg. eexists. split; [reflexivity|].
        apply (parse_version_three _ _ _ _ P).
    + left. rewrite (run_on_format_error _ _ _ _ NE) in H.
      injection H as <- <-. split; [reflexivity|].
      exists arg. repeat split. rewrite length_split in NE. lia.
Qed.

Lemma main_failure_cases_witness :
  ("version=2.5.3" ++ newline = "" /\ OutputError = IndexError /\
   (List.length ["parse_version.py"; "v2.5.3"] < 2)%nat) \/
  ("version=2.5.3" ++ newline = "" /\
   exists arg,
     nth_error ["parse_version.py"; "v2.5.3"] 1 = Some arg /\
     OutputError = format_error arg /\
     Str.count "." (Str.lstrip "v" arg) <> 2) \/
  (OutputError = OutputError /\
   exists arg r,
     nth_error ["parse_version.py"; "v2.5.3"] 1 = Some arg /\
     parse_version arg = Ok r).
Proof.
  apply (main_failure_cases
           (fun s => String.eqb s "version=2.5.3")
           ["parse_version.py"; "v2.5.3"]).
  reflexivity.
Defined.

(** ** Further properties of [parse_version] *)

(** X4: any number of leading ['v'] in front of the input changes nothing
    in the record that is returned. *)
Theorem parse_version_v_prefix (n : nat) (s : string) (r : Dict.t) :
  parse_version (Str.replicate n "v" ++ s) = Ok r <-> parse_version s = Ok r.
Proof.
  split; apply parse_version_same_stripped;
    now rewrite lstrip_replicate_v.
Qed.

(** X5: the [version] field of a result parses again to the same record. *)
Theorem parse_version_reparse (s version : string) (r : Dict.t) :
  parse_version s = Ok r ->
  Dict.get "version" r = Some version ->
  parse_version version = Ok r.
Proof.
  intros H G. apply (parse_version_same_stripped s); [|exact H].
  parse_inv H. cbn in G. injection G as <-.
  symmetry. apply lstrip_idempotent.
Qed.

Lemma parse_version_reparse_witness :
  parse_version "2.99.0-rc1" =
  Ok [ ("version", "2.99.0-rc1"); ("major_minor", "2.99");
       ("release_branch", "v2.99.x"); ("is_minor", "true");
       ("is_first_rc", "true") ].
Proof.
  apply (parse_version_reparse "vv2.99.0-rc1"); reflexivity.
Defined.

(** X6: a version written from three dot-free components, the first not
    starting with ['v'], behind any number of ['v'], parses, and the record
    gives the components back: [version] is the text without the ['v']
    run, [major_minor] and [release_branch] are made of the first two
    components, [is_minor] tells whether the third, up to its first dash,
    is ["0"], and [is_first_rc] whether moreover ["rc1"] occurs in the
    text.  Nothing else is asked of the components: they may be empty or
    hold letters. *)
Theorem parse_version_of_components
  (n : nat) (major minor patch : string) :
  Str.count "." major = 0 -> Str.count "." minor = 0 ->
  Str.count "." patch = 0 -> Str.startswith "v" major = false ->
  parse_version
    (Str.replicate n "v" ++ major ++ "." ++ minor ++ "." ++ patch) =
  Ok [ ("version", major ++ "." ++ minor ++ "." ++ patch);
       ("major_minor", major ++ "." ++ minor);
       ("release_branch", "v" ++ major ++ "." ++ minor ++ ".x");
       ("is_minor",
        if Str.before_first "-" patch =? "0" then "true" else "false");
       ("is_first_rc",
        if (Str.before_first "-" patch =? "0")
           && Str.contains "rc1" (major ++ "." ++ minor ++ "." ++ patch)
        then "true" else "false") ].
Proof.
  intros Ha Hb Hc Hv.
  assert (S : Str.lstrip "v"
                (Str.replicate n "v" ++ major ++ "." ++ minor ++ "." ++ patch)
              = major ++ "." ++ minor ++ "." ++ patch).
  { rewrite lstrip_replicate_v. now apply lstrip_v_components. }
  assert (P : Str.split "."
                (Str.lstrip "v"
                   (Str.replicate n "v" ++ major ++ "." ++ minor ++ "." ++ patch))
              = [major; minor; patch]).
  { rewrite S. now apply split_three. }
  rewrite (parse_version_three _ _ _ _ P), S, !lower_of_bool.
  reflexivity.
Qed.

Lemma parse_version_of_components_witness :
  parse_version (Str.replicate 2 "v" ++ "" ++ "." ++ "x" ++ "." ++ "0-b") =
  Ok [ ("version", "" ++ "." ++ "x" ++ "." ++ "0-b");
       ("major_minor", "" ++ "." ++ "x");
       ("release_branch", "v" ++ "" ++ "." ++ "x" ++ ".x");
       ("is_minor",
        if Str.before_first "-" "0-b" =? "0" then "true" else "false");
       ("is_first_rc",
        if (Str.before_first "-" "0-b" =? "0")
           && Str.contains "rc1" ("" ++ "." ++ "x" ++ "." ++ "0-b")
        then "true" else "false") ].
Proof.
  apply (parse_version_of_components 2 "" "x" "0-b"); reflexivity.
Defined.

(** X7: the first-RC test is a substring test, so every suffix that starts
    with ["rc1"] passes it: for dot-free [major], [minor] and [tail], the
    version [major.minor.0-rc1tail] (such as [2.20.0-rc10]) is reported as
    a minor release and as its first release candidate. *)
Theorem first_rc_accepts_rc1_prefix (major minor tail : string) :
  Str.count "." major = 0 -> Str.count "." minor = 0 ->
  Str.count "." tail = 0 -> Str.startswith "v" major = false ->
  exists r,
    parse_version ("v" ++ major ++ "." ++ minor ++ "." ++ "0-rc1" ++ tail)
    = Ok r /\
    Dict.get "is_minor" r = Some "true" /\
    Dict.get "is_first_rc" r = Some "true".
Proof.
  intros Ha Hb Hc Hv.
  assert (S : Str.lstrip "v"
                ("v" ++ major ++ "." ++ minor ++ "." ++ "0-rc1" ++ tail)
              = major ++ "." ++ minor ++ "." ++ "0-rc1" ++ tail).
  { transitivity
      (Str.lstrip "v" (major ++ "." ++ minor ++ "." ++ "0-rc1" ++ tail));
      [reflexivity|now apply lstrip_v_components]. }
  assert (P : Str.split "."
                (Str.lstrip "v"
                   ("v" ++ major ++ "." ++ minor ++ "." ++ "0-rc1" ++ tail))
              = [major; minor; "0-rc1" ++ tail]).
  { rewrite S. now apply split_three. }
  eexists. split; [apply (parse_version_three _ _ _ _ P)|].
  cbn [Dict.get String.eqb Ascii.eqb Bool.eqb].
  assert (C : Str.contains "rc1"
                (Str.lstrip "v"
                   ("v" ++ major ++ "." ++ minor ++ "." ++ "0-rc1" ++ tail))
              = true).
  { rewrite S. apply contains_spec.
    exists (major ++ "." ++ minor ++ "." ++ "0-"), tail.
    rewrite !append_assoc. reflexivity. }
  rewrite C. split; reflexivity.
Qed.

Lemma first_rc_accepts_rc1_prefix_witness :
  exists r,
    parse_version ("v" ++ "2" ++ "." ++ "20" ++ "." ++ "0-rc1" ++ "0")
    = Ok r /\
    Dict.get "is_minor" r = Some "true" /\
    Dict.get "is_first_rc" r = Some "true".
Proof.
  apply (first_rc_accepts_rc1_prefix "2" "20" "0"); reflexivity.
Defined.

(** X8: in every record, [version] holds exactly two dots, [major_minor]
    exactly one and [release_branch] exactly two. *)
Theorem dots_in_fields (s : string) (r : Dict.t) :
  parse_version s = Ok r ->
  exists version major_minor release_branch,
    Dict.get "version" r = Some version /\
    Dict.get "major_minor" r = Some major_minor /\
    Dict.get "release_branch" r = Some release_branch /\
    Str.count "." version = 2 /\
    Str.count "." major_minor = 1 /\
    Str.count "." release_branch = 2.
Proof.
  intros H. parse_inv H.
  destruct (components_dot_free _ _ _ _ Hparts) as (Ha & Hb & Hc).
  do 3 eexists. do 3 (split; [reflexivity|]).
  repeat split.
  - pose proof (length_split "." (Str.lstrip "v" s)) as L.
    rewrite Hparts in L. simpl in L. lia.
  - rewrite count_append. cbn. lia.
  - cbn [append Str.count]. rewrite count_append. cbn [Str.count].
    rewrite count_append. cbn. lia.
Qed.

Lemma dots_in_fields_witness :
  exists version major_minor release_branch,
    Dict.get "version"
      [ ("version", "2.5.3"); ("major_minor", "2.5");
        ("release_branch", "v2.5.x"); ("is_minor", "false");
        ("is_first_rc", "false") ] = Some version /\
    Dict.get "major_minor"
      [ ("version", "2.5.3"); ("major_minor", "2.5");
        ("release_branch", "v2.5.x"); ("is_minor", "false");
        ("is_first_rc", "false") ] = Some major_minor /\
    Dict.get "release_branch"
      [ ("version", "2.5.3"); ("major_minor", "2.5");
        ("release_branch", "v2.5.x"); ("is_minor", "false");
        ("is_first_rc", "false") ] = Some release_branch /\
    Str.count "." version = 2 /\
    Str.count "." major_minor = 1 /\
    Str.count "." release_branch = 2.
Proof.
  apply (dots_in_fields "2.5.3"). reflexivity.
Defined.

(** X9: the fields of a record agree with each other: [release_branch] is
    ["v"], then [major_minor], then [".x"], and [version] starts with
    [major_minor] followed by a dot. *)
Theorem fields_agree (s : string) (r : Dict.t) :
  parse_version s = Ok r ->
  exists version major_minor release_branch,
    Dict.get "version" r = Some version /\
    Dict.get "major_minor" r = Some major_minor /\
    Dict.get "release_branch" r = Some release_branch /\
    release_branch = "v" ++ major_minor ++ ".x" /\
    Str.startswith (major_minor ++ ".") version = true.
Proof.
  intros H. parse_inv H.
  do 3 eexists. do 3 (split; [reflexivity|]). split.
  - now rewrite append_assoc.
  - rewrite (components_join _ _ _ _ Hparts) at 1.
    replace (major ++ "." ++ minor ++ "." ++ patch)
      with (((major ++ "." ++ minor) ++ ".") ++ patch)
      by (now rewrite !append_assoc).
    apply startswith_app.
Qed.

Lemma fields_agree_witness :
  exists version major_minor release_branch,
    Dict.get "version"
      [ ("version", "2.5.3"); ("major_minor", "2.5");
        ("release_branch", "v2.5.x"); ("is_minor", "false");
        ("is_first_rc", "false") ] = Some version /\
    Dict.get "major_minor"
      [ ("version", "2.5.3"); ("major_minor", "2.5");
        ("release_branch", "v2.5.x"); ("is_minor", "false");
        ("is_first_rc", "false") ] = Some major_minor /\
    Dict.get "release_branch"
      [ ("version", "2.5.3"); ("major_minor", "2.5");
        ("release_branch", "v2.5.x"); ("is_minor", "false");
        ("is_first_rc", "false") ] = Some release_branch /\
    release_branch = "v" ++ major_minor ++ ".x" /\
    Str.startswith (major_minor ++ ".") version = true.
Proof.
  apply (fields_agree "v2.5.3"). reflexivity.
Defined.

Lemma contains_append (needle hay t : string) :
  Str.contains needle hay = true -> Str.contains needle (hay ++ t) = true.
Proof.
  rewrite !contains_spec. intros (pre & post & ->).
  exists pre, (post ++ t). now rewrite !append_assoc.
Qed.

(** X10: a pre-release suffix does not move a version to another branch:
    when [s] parses, so does [s] followed by a dash and any dot-free
    [suffix], with the same [major_minor], [release_branch] and
    [is_minor]; [version] gains the suffix, and a first release candidate
    stays one. *)
Theorem suffix_keeps_branch (s suffix : string) (r : Dict.t) :
  parse_version s = Ok r ->
  Str.count "." suffix = 0 ->
  exists r',
    parse_version (s ++ "-" ++ suffix) = Ok r' /\
    Dict.get "major_minor" r' = Dict.get "major_minor" r /\
    Dict.get "release_branch" r' = Dict.get "release_branch" r /\
    Dict.get "is_minor" r' = Dict.get "is_minor" r /\
    Dict.get "version" r' =
    option_map (fun v => v ++ "-" ++ suffix) (Dict.get "version" r) /\
    (Dict.get "is_first_rc" r = Some "true" ->
     Dict.get "is_first_rc" r' = Some "true").
Proof.
  intros H Hs. parse_inv H.
  destruct (components_dot_free _ _ _ _ Hparts) as (Ha & Hb & Hc).
  assert (NE : Str.lstrip "v" s <> "").
  { intros E. rewrite E in Hparts. discriminate. }
  assert (S : Str.lstrip "v" (s ++ "-" ++ suffix)
              = Str.lstrip "v" s ++ "-" ++ suffix)
    by now apply lstrip_v_app.
  assert (P : Str.split "." (Str.lstrip "v" (s ++ "-" ++ suffix))
              = [major; minor; patch ++ "-" ++ suffix]).
  { rewrite S, (components_join _ _ _ _ Hparts) at 1.
    rewrite !append_assoc. apply split_three; try assumption.
    rewrite count_append. cbn. lia. }
  eexists. split; [apply (parse_version_three _ _ _ _ P)|].
  cbn [Dict.get String.eqb Ascii.eqb Bool.eqb option_map].
  change (patch ++ "-" ++ suffix) with (patch ++ String "-" suffix).
  rewrite before_first_app_sep, S.
  repeat split.
  rewrite !lower_of_bool.
  destruct (Str.before_first "-" patch =? "0"); [|discriminate].
  cbn [andb].
  destruct (Str.contains "rc1" (Str.lstrip "v" s)) eqn:C; [|discriminate].
  intros _. now rewrite (contains_append _ _ _ C).
Qed.

Lemma suffix_keeps_branch_witness :
  exists r',
    parse_version ("v2.20.0" ++ "-" ++ "rc2") = Ok r' /\
    Dict.get "major_minor" r' =
    Dict.get "major_minor"
      [ ("version", "2.20.0"); ("major_minor", "2.20");
        ("release_branch", "v2.20.x"); ("is_minor", "true");
        ("is_first_rc", "false") ] /\
    Dict.get "release_branch" r' =
    Dict.get "release_branch"
      [ ("version", "2.20.0"); ("major_minor", "2.20");
        ("release_branch", "v2.20.x"); ("is_minor", "true");
        ("is_first_rc", "false") ] /\
    Dict.get "is_minor" r' =
    Dict.get "is_minor"
      [ ("version", "2.20.0"); ("major_minor", "2.20");
        ("release_branch", "v2.20.x"); ("is_minor", "true");
        ("is_first_rc", "false") ] /\
    Dict.get "version" r' =
    option_map (fun v => v ++ "-" ++ "rc2")
      (Dict.get "version"
         [ ("version", "2.20.0"); ("major_minor", "2.20");
           ("release_branch", "v2.20.x"); ("is_minor", "true");
           ("is_first_rc", "false") ]) /\
    (Dict.get "is_first_rc"
       [ ("version", "2.20.0"); ("major_minor", "2.20");
         ("release_branch", "v2.20.x"); ("is_minor", "true");
         ("is_first_rc", "false") ] = Some "true" ->
     Dict.get "is_first_rc" r' = Some "true").
Proof.
  apply (suffix_keeps_branch "v2.20.0" "rc2"); reflexivity.
Defined.

(** ** The lines on standard output *)

Lemma split_line (l rest : string) :
  Str.count (ascii_of_nat 10) l = 0 ->
  Str.split (ascii_of_nat 10) (l ++ newline ++ rest)
  = l :: Str.split (ascii_of_nat 10) rest.
Proof. intros H. now apply split_app_sep. Qed.

Lemma count_lstrip_v (c : ascii) (s : string) :
  Ascii.eqb "v" c = false ->
  Str.count c (Str.lstrip "v" s) = Str.count c s.
Proof.
  intros H. destruct (lstrip_v_run s) as [n Hn].
  rewrite Hn at 2. now rewrite count_append, count_replicate_v.
Qed.

(** Five texts without line feed, each printed after its key, make five
    lines. *)
Lemma five_lines (version major_minor release_branch is_minor is_first_rc
                  : string) :
  Str.count (ascii_of_nat 10) version = 0 ->
  Str.count (ascii_of_nat 10) major_minor = 0 ->
  Str.count (ascii_of_nat 10) release_branch = 0 ->
  Str.count (ascii_of_nat 10) is_minor = 0 ->
  Str.count (ascii_of_nat 10) is_first_rc = 0 ->
  lines ("version=" ++ version ++ newline ++
         "major_minor=" ++ major_minor ++ newline ++
         "release_branch=" ++ release_branch ++ newline ++
         "is_minor=" ++ is_minor ++ newline ++
         "is_first_rc=" ++ is_first_rc ++ newline) =
  [ "version=" ++ version; "major_minor=" ++ major_minor;
    "release_branch=" ++ release_branch; "is_minor=" ++ is_minor;
    "is_first_rc=" ++ is_first_rc; "" ].
Proof.
  intros H1 H2 H3 H4 H5. unfold lines.
  replace ("version=" ++ version ++ newline ++
           "major_minor=" ++ major_minor ++ newline ++
           "release_branch=" ++ release_branch ++ newline ++
           "is_minor=" ++ is_minor ++ newline ++
           "is_first_rc=" ++ is_first_rc ++ newline)
    with (("version=" ++ version) ++ newline ++
          ("major_minor=" ++ major_minor) ++ newline ++
          ("release_branch=" ++ release_branch) ++ newline ++
          ("is_minor=" ++ is_minor) ++ newline ++
          ("is_first_rc=" ++ is_first_rc) ++ newline ++ "")
    by (repeat first [rewrite !append_assoc | progress cbn [append]];
        reflexivity).
  rewrite !split_line; [reflexivity| | | | |];
    change (ascii_of_nat 10) with "010"%char in *;
    cbn [append Str.count Ascii.eqb Bool.eqb]; assumption.
Qed.

(** C6, as amended: on every successful run with one positional argument
    that holds no line feed, standard output is exactly one [key=value]
    line per field of the record, in the order [version], [major_minor],
    [release_branch], [is_minor], [is_first_rc], with nothing after the
    last line feed; the two flags are written as ["true"] or ["false"]. *)
Theorem main_output (stdout : stream) (prog arg out : string) :
  Str.count (ascii_of_nat 10) arg = 0 ->
  run_on stdout [prog; arg] = (out, Ok tt) ->
  exists version major_minor release_branch is_minor is_first_rc,
    parse_version arg =
    Ok [ ("version", version); ("major_minor", major_minor);
         ("release_branch", release_branch); ("is_minor", is_minor);
         ("is_first_rc", is_first_rc) ] /\
    (is_minor = "true" \/ is_minor = "false") /\
    (is_first_rc = "true" \/ is_first_rc = "false") /\
    lines out =
    [ "version=" ++ version; "major_minor=" ++ major_minor;
      "release_branch=" ++ release_branch; "is_minor=" ++ is_minor;
      "is_first_rc=" ++ is_first_rc; "" ].
Proof.
  intros Hnl H.
  destruct (Nat.eq_dec (List.length (Str.split "." (Str.lstrip "v" arg))) 3)
    as [E|NE].
  2: { rewrite (run_on_format_error _ _ _ _ NE) in H. discriminate. }
  destruct (length_three _ E) as (major & minor & patch & P).
  destruct (run_on_three stdout prog arg _ _ _ [] P) as [R|[o R]];
    rewrite R in H; [|discriminate].
  rewrite (run_three _ _ _ _ _ P) in H.
  apply (f_equal fst) in H. cbn [fst] in H. subst out.
  rewrite <- (count_lstrip_v (ascii_of_nat 10) arg) in Hnl by reflexivity.
  pose proof (f_equal (Str.count (ascii_of_nat 10))
                (components_join _ _ _ _ P)) as Hc.
  rewrite !count_append, Hnl in Hc.
  do 5 eexists. split; [apply (parse_version_three _ _ _ _ P)|].
  rewrite !lower_of_bool.
  split; [destruct (_ =? _); auto|].
  split; [destruct (_ && _); auto|].
  apply five_lines; change (ascii_of_nat 10) with "010"%char in *.
  - exact Hnl.
  - rewrite !count_append. cbn in Hc |- *. lia.
  - repeat first [rewrite !count_append | progress cbn in Hc |- *]. lia.
  - now destruct (_ =? _).
  - now destruct (_ && _).
Qed.

Lemma main_output_witness :
  exists version major_minor release_branch is_minor is_first_rc,
    parse_version "v2.99.0-rc1" =
    Ok [ ("version", version); ("major_minor", major_minor);
         ("release_branch", release_branch); ("is_minor", is_minor);
         ("is_first_rc", is_first_rc) ] /\
    (is_minor = "true" \/ is_minor = "false") /\
    (is_first_rc = "true" \/ is_first_rc = "false") /\
    lines ("version=2.99.0-rc1" ++ newline ++ "major_minor=2.99" ++ newline ++
           "release_branch=v2.99.x" ++ newline ++ "is_minor=true" ++ newline ++
           "is_first_rc=true" ++ newline) =
    [ "version=" ++ version; "major_minor=" ++ major_minor;
      "release_branch=" ++ release_branch; "is_minor=" ++ is_minor;
      "is_first_rc=" ++ is_first_rc; "" ].
Proof.
  apply (main_output accepting "parse_version.py" "v2.99.0-rc1");
    reflexivity.
Defined.

(** C6, as first stated, fails on an argument with a line feed: the value
    of [version] is printed as it is, so the argument [1.2.3], line feed,
    [is_minor=true] parses, the run succeeds, and standard output has six
    lines, two of them for [is_minor], which is not one line per field. *)
Lemma main_output_line_feed_counterexample :
  exists r out,
    parse_version ("1.2.3" ++ String (ascii_of_nat 10) "is_minor=true")
    = Ok r /\
    run ["parse_version.py";
         "1.2.3" ++ String (ascii_of_nat 10) "is_minor=true"] = (out, Ok tt) /\
    Dict.get "is_minor" r = Some "false" /\
    lines out =
    [ "version=1.2.3"; "is_minor=true"; "major_minor=1.2";
      "release_branch=v1.2.x"; "is_minor=false"; "is_first_rc=false"; "" ] /\
    lines out <> field_lines r.
Proof.
  do 2 eexists. repeat split; try reflexivity.
  intros E. apply (f_equal (@List.length string)) in E.
  vm_compute in E. discriminate.
Qed.

(** X11: the values are printed as they are, so standard output of a
    successful run has exactly five line breaks if and only if the argument
    has none. *)
Theorem stdout_five_lines_iff (prog arg : string) (r : Dict.t) :
  parse_version arg = Ok r ->
  Str.count (ascii_of_nat 10) (fst (run [prog; arg])) = 5 <->
  Str.count (ascii_of_nat 10) arg = 0.
Proof.
  intros H.
  destruct (parse_version_Ok _ _ H) as (major & minor & patch & P & _).
  rewrite (run_three prog _ _ _ _ P). cbn [fst].
  rewrite <- (count_lstrip_v (ascii_of_nat 10) arg) by reflexivity.
  pose proof (components_join _ _ _ _ P) as J.
  pose proof (f_equal (Str.count (ascii_of_nat 10)) J) as Hc.
  rewrite !count_append in Hc.
  rewrite !lower_of_bool.
  destruct (_ =? _); destruct (Str.contains _ _);
    repeat first [rewrite !count_append | progress cbn in Hc |- *];
    lia.
Qed.

Lemma stdout_five_lines_iff_witness :
  Str.count (ascii_of_nat 10)
    (fst (run ["parse_version.py"; "v2.99.0-rc1"])) = 5 <->
  Str.count (ascii_of_nat 10) "v2.99.0-rc1" = 0.
Proof.
  exact (stdout_five_lines_iff "parse_version.py" "v2.99.0-rc1" _ eq_refl).
Defined.

(** X12: when the argument has no line break, cutting standard output at
    the line breaks gives the five lines [key=value], one per field of the
    record and in the record's order, and nothing after the last line
    break. *)
Theorem stdout_lines (prog arg : string) (r : Dict.t) :
  parse_version arg = Ok r ->
  Str.count (ascii_of_nat 10) arg = 0 ->
  exists version major_minor release_branch is_minor is_first_rc,
    r = [ ("version", version); ("major_minor", major_minor);
          ("release_branch", release_branch); ("is_minor", is_minor);
          ("is_first_rc", is_first_rc) ] /\
    Str.split (ascii_of_nat 10) (fst (run [prog; arg])) =
    [ "version=" ++ version; "major_minor=" ++ major_minor;
      "release_branch=" ++ release_branch; "is_minor=" ++ is_minor;
      "is_first_rc=" ++ is_first_rc; "" ].
Proof.
  intros H Hnl. pose proof H as H0. parse_inv H.
  rewrite (run_three prog _ _ _ _ Hparts). cbn [fst].
  rewrite <- (count_lstrip_v (ascii_of_nat 10) arg) in Hnl by reflexivity.
  pose proof (components_join _ _ _ _ Hparts) as J.
  pose proof (f_equal (Str.count (ascii_of_nat 10)) J) as Hc.
  rewrite !count_append, Hnl in Hc.
  do 5 eexists. split; [reflexivity|].
  set (v := Str.lstrip "v" arg) in *.
  set (im := Str.lower (Str.of_bool (Str.before_first "-" patch =? "0"))).
  set (ifr := Str.lower (Str.of_bool _)).
  assert (Him : Str.count (ascii_of_nat 10) im = 0).
  { subst im. rewrite lower_of_bool. now destruct (_ =? _). }
  assert (Hifr : Str.count (ascii_of_nat 10) ifr = 0).
  { subst ifr. rewrite lower_of_bool. now destruct (_ && _). }
  replace ("version=" ++ v ++ newline ++
           "major_minor=" ++ (major ++ "." ++ minor) ++ newline ++
           "release_branch=" ++ ("v" ++ major ++ "." ++ minor ++ ".x")
             ++ newline ++
           "is_minor=" ++ im ++ newline ++
           "is_first_rc=" ++ ifr ++ newline)
    with (("version=" ++ v) ++ newline ++
          ("major_minor=" ++ major ++ "." ++ minor) ++ newline ++
          ("release_branch=" ++ "v" ++ major ++ "." ++ minor ++ ".x")
            ++ newline ++
          ("is_minor=" ++ im) ++ newline ++
          ("is_first_rc=" ++ ifr) ++ newline ++ "")
    by (repeat first [rewrite !append_assoc | progress cbn [append]];
        reflexivity).
  rewrite !split_line; [reflexivity| | | | |];
    change (ascii_of_nat 10) with "010"%char in *;
    repeat first [rewrite !count_append | progress cbn in Hc |- *];
    first [assumption | lia].
Qed.

Lemma stdout_lines_witness :
  exists version major_minor release_branch is_minor is_first_rc,
    [ ("version", "2.5.3"); ("major_minor", "2.5");
      ("release_branch", "v2.5.x"); ("is_minor", "false");
      ("is_first_rc", "false") ]
    = [ ("version", version); ("major_minor", major_minor);
        ("release_branch", release_branch); ("is_minor", is_minor);
        ("is_first_rc", is_first_rc) ] /\
    Str.split (ascii_of_nat 10) (fst (run ["parse_version.py"; "v2.5.3"])) =
    [ "version=" ++ version; "major_minor=" ++ major_minor;
      "release_branch=" ++ release_branch; "is_minor=" ++ is_minor;
      "is_first_rc=" ++ is_first_rc; "" ].
Proof.
  apply (stdout_lines "parse_version.py" "v2.5.3"); reflexivity.
Defined.
